(** * AssumeRoleConnection.py: the [AwsConnection] class

    A shallow embedding of [src/AssumeRoleConnection.py].  The class talks to
    two remote services through boto3 (STS [assume_role], S3
    [list_objects_v2]), reads the wall clock, and writes log records.  These
    effects are modelled by a small exception monad over a history of events:
    every service call, clock reading, handle creation and log record is
    appended to the history, and what a service answers, whether a client
    can be built and what the clock shows are given by a [backend] whose
    answers may depend on everything that happened before. *)

From Stdlib Require Import ZArith QArith_base Lia.
From stdpp Require Import base option list strings pretty gmap.

Local Open Scope Z_scope.
Local Open Scope string_scope.
Local Open Scope list_scope.

(** ** Python values used by the module *)

(** [datetime.datetime]: microsecond resolution.  For an aware value
    [dt_us] is the POSIX timestamp in microseconds; for a naive one it is the
    wall-clock reading counted from 1970-01-01T00:00:00. *)
Record datetime := Datetime { dt_us : Z; dt_tzinfo : option string }.

(** Exceptions (all subclasses of [Exception]) that can reach the handlers of
    the module. *)
Inductive exn :=
| ClientError (code message operation_name : string)
| NoCredentialsError
| BotoCoreError (msg : string)
| KeyError (key : string)
| AttributeError (msg : string)
| TypeError (msg : string)
| ValueError (msg : string).

(** [str(e)] *)
Definition exn_str (e : exn) : string :=
  match e with
  | ClientError code message op =>
      "An error occurred (" +:+ code +:+ ") when calling the " +:+ op
        +:+ " operation: " +:+ message
  | NoCredentialsError => "Unable to locate credentials"
  | BotoCoreError msg => msg
  | KeyError key => "'" +:+ key +:+ "'"
  | AttributeError msg => msg
  | TypeError msg => msg
  | ValueError msg => msg
  end.

(** Truth value of an [Optional[str]]: [None] and the empty string are
    false. *)
Definition truthy (o : option string) : bool :=
  match o with
  | Some (String _ _) => true
  | _ => false
  end.

(** [str(x)] / f-string formatting of an [Optional[str]]. *)
Definition opt_str (o : option string) : string :=
  match o with
  | Some s => s
  | None => "None"
  end.

(** ** The part of pandas the module uses *)

Module pd.

(** [pandas.Timestamp]: nanoseconds since the epoch (UTC) and a zone;
    [ts_tz = None] is a naive timestamp. *)
Record Timestamp := mkTimestamp { ts_ns : Z; ts_tz : option string }.

(** A value held in a frame.  [CObject repr] is any other Python object
    (a list, a dictionary), known by its [str]. *)
Inductive cell :=
| CStr (s : string)
| CInt (z : Z)
| CDatetime (d : datetime)
| CTimestamp (t : Timestamp)
| CObject (repr : string)
| CNaN
| CNaT.

(** A frame: number of rows and the columns by label. *)
Record DataFrame := mkDataFrame {
  index : nat;
  columns : gmap string (list cell)
}.

(** Text conversions of the library ([str] of a date, the date parser);
    the program never reaches them, since [Key] holds strings and
    [LastModified] holds datetimes. *)
Record text := mkText {
  format_datetime : datetime → string;
  format_timestamp : Timestamp → string;
  parse_datetime_ns : string → option Z
}.

Definition column_names (data : list (gmap string cell)) : gset string :=
  ⋃ (dom <$> data).

Definition column (data : list (gmap string cell)) (label : string)
  : list cell :=
  (λ row, default CNaN (row !! label)) <$> data.

(** [pd.DataFrame(data)] for a list of dictionaries: one row per
    dictionary, one column per key that occurs, [NaN] where a dictionary
    lacks the key. *)
Definition from_records (data : list (gmap string cell)) : DataFrame :=
  mkDataFrame (length data)
    (set_to_map (λ label, (label, column data label)) (column_names data)).

(** [df[label]] *)
Definition getitem (df : DataFrame) (label : string) : exn + list cell :=
  match columns df !! label with
  | Some col => inr col
  | None => inl (KeyError label)
  end.

(** [df[label] = col] *)
Definition setitem (df : DataFrame) (label : string) (col : list cell)
  : DataFrame :=
  mkDataFrame (index df) (<[label := col]> (columns df)).

Section Text.
Variable T : text.

Definition cell_str (c : cell) : string :=
  match c with
  | CStr s => s
  | CInt z => pretty z
  | CDatetime d => format_datetime T d
  | CTimestamp t => format_timestamp T t
  | CObject repr => repr
  | CNaN => "nan"
  | CNaT => "NaT"
  end.

(** [col.astype(str)] *)
Definition astype_str (col : list cell) : list cell :=
  (λ c, CStr (cell_str c)) <$> col.

(** One value under [pd.to_datetime(..., utc=True)]: same instant, zone
    UTC; a naive value is read as UTC. *)
Definition to_datetime_utc1 (c : cell) : exn + cell :=
  match c with
  | CDatetime d => inr (CTimestamp (mkTimestamp (1000 * dt_us d) (Some "UTC")))
  | CTimestamp t => inr (CTimestamp (mkTimestamp (ts_ns t) (Some "UTC")))
  | CInt z => inr (CTimestamp (mkTimestamp z (Some "UTC")))
  | CStr s =>
      match parse_datetime_ns T s with
      | Some ns => inr (CTimestamp (mkTimestamp ns (Some "UTC")))
      | None => inl (ValueError ("Unknown datetime string format, unable to parse: " +:+ s))
      end
  | CObject repr =>
      inl (TypeError (repr +:+ " is not convertible to datetime"))
  | CNaN | CNaT => inr CNaT
  end.

End Text.

(** Apply a fallible conversion to every value, left to right. *)
Fixpoint traverse (f : cell → exn + cell) (col : list cell)
  : exn + list cell :=
  match col with
  | [] => inr []
  | c :: col =>
      match f c with
      | inl e => inl e
      | inr c' =>
          match traverse f col with
          | inl e => inl e
          | inr col' => inr (c' :: col')
          end
      end
  end.

(** [pd.to_datetime(col, utc=True)] *)
Definition to_datetime_utc (T : text) (col : list cell) : exn + list cell :=
  traverse (to_datetime_utc1 T) col.

Definition tz_convert1 (tz : string) (c : cell) : exn + cell :=
  match c with
  | CTimestamp t =>
      match ts_tz t with
      | Some _ => inr (CTimestamp (mkTimestamp (ts_ns t) (Some tz)))
      | None =>
          inl (TypeError
                 "Cannot convert tz-naive timestamps, use tz_localize to localize")
      end
  | CNaT => inr CNaT
  | _ => inl (AttributeError "Can only use .dt accessor with datetimelike values")
  end.

(** [col.dt.tz_convert(tz)]: same instants, shown in zone [tz]. *)
Definition dt_tz_convert (col : list cell) (tz : string) : exn + list cell :=
  traverse (tz_convert1 tz) col.

End pd.

(** ** boto3 handles and botocore response shapes *)

Module boto3.

(** The keyword arguments a [boto3.Session] was built from. *)
Record Session := mkSession {
  aws_access_key_id : option string;
  aws_secret_access_key : option string;
  aws_session_token : option string;
  region_name : string
}.

(** [session.client(service_name)]: a client remembers its session. *)
Record client := mkClient {
  service_name : string;
  session : Session
}.

(** Responses are dictionaries.  A top-level member the service may leave
    out is an [option]: [None] means the key is absent, and subscripting
    it raises [KeyError].  The members of the STS [Credentials] structure
    and the five named members of an S3 object entry are always sent. *)
Record Credentials := mkCredentials {
  AccessKeyId : string;
  SecretAccessKey : string;
  SessionToken : string;
  Expiration : datetime
}.

Record AssumeRoleOutput := mkAssumeRoleOutput {
  Credentials_ : option Credentials
}.

(** One element of [Contents] in a [list_objects_v2] response.  [Other]
    holds whatever further members the entry has ([ChecksumAlgorithm],
    [ChecksumType], [Owner], ...), by name. *)
Record Object := mkObject {
  Key : string;
  LastModified : datetime;
  ETag : string;
  Size : Z;
  StorageClass : string;
  Other : gmap string pd.cell
}.

Record ListObjectsV2Output := mkListObjectsV2Output {
  Name : option string;
  Contents : option (list Object)
}.

End boto3.

Inductive loglevel := INFO | ERROR.

(** What the program did, in order. *)
Inductive event :=
| SessionCreated (s : boto3.Session)
| ClientCreated (c : boto3.client)
| ClientRefused (s : boto3.Session) (service_name : string) (e : exn)
| ClockRead (timestamp : Q)
| AssumeRoleCall (c : boto3.client) (RoleArn : option string)
    (RoleSessionName : string) (answer : exn + boto3.AssumeRoleOutput)
| ListObjectsV2Call (c : boto3.client) (Bucket : string)
    (Prefix : option string) (answer : exn + boto3.ListObjectsV2Output)
| Logged (level : loglevel) (msg : string).

(** The world outside the process.  Each answer may depend on the whole
    history so far, so a backend can reject the second call but not the
    first, let the clock stand still or jump, and so on. *)
Record backend := mkBackend {
  (** [session.client(service_name)]: the exception it raises, if any
      (an endpoint that cannot be built for the region, partial
      credentials found by the default discovery, ...) *)
  create_client : list event → boto3.Session → string → option exn;
  sts_assume_role :
    list event → boto3.client → option string → string →
    exn + boto3.AssumeRoleOutput;
  s3_list_objects_v2 :
    list event → boto3.client → string → option string →
    exn + boto3.ListObjectsV2Output;
  (** the float that [datetime.now().timestamp()] returns, as the exact
      rational it denotes *)
  clock : list event → Q
}.

(** ** The effect monad

    A computation is run against the history of what happened before it and
    yields either a raised exception or a value, together with the events it
    added. *)
Definition M (A : Type) : Type := list event → (exn + A) * list event.

Definition run {A} (m : M A) (h : list event) : (exn + A) * list event := m h.

Definition ret {A} (a : A) : M A := λ _, (inr a, []).

Definition bind {A B} (m : M A) (f : A → M B) : M B :=
  λ h,
    match m h with
    | (inr a, ev) => let '(r, ev') := f a (h ++ ev) in (r, ev ++ ev')
    | (inl e, ev) => (inl e, ev)
    end.

Definition raise {A} (e : exn) : M A := λ _, (inl e, []).

(** [try: m  except Exception as e: handler e] *)
Definition try_except {A} (m : M A) (handler : exn → M A) : M A :=
  λ h,
    match m h with
    | (inr a, ev) => (inr a, ev)
    | (inl e, ev) => let '(r, ev') := handler e (h ++ ev) in (r, ev ++ ev')
    end.

Definition emit (e : event) : M unit := λ _, (inr tt, [e]).

(** Lift the outcome of a pure library call into the monad. *)
Definition answer {A} (r : exn + A) : M A :=
  match r with
  | inr a => ret a
  | inl e => raise e
  end.

#[global] Instance M_ret : MRet M := @ret.
#[global] Instance M_bind : MBind M := λ A B f m, bind m f.

(** [d[key]] on a response member. *)
Definition getitem {A} (member : option A) (key : string) : M A :=
  match member with
  | Some a => ret a
  | None => raise (KeyError key)
  end.

Module logger.
Definition info (msg : string) : M unit := emit (Logged INFO msg).
Definition error (msg : string) : M unit := emit (Logged ERROR msg).
End logger.

(** The dictionary boto3 hands out for one object entry. *)
Definition Object_items (o : boto3.Object) : gmap string pd.cell :=
  <["Key" := pd.CStr (boto3.Key o)]>
  (<["LastModified" := pd.CDatetime (boto3.LastModified o)]>
  (<["ETag" := pd.CStr (boto3.ETag o)]>
  (<["Size" := pd.CInt (boto3.Size o)]>
  (<["StorageClass" := pd.CStr (boto3.StorageClass o)]> (boto3.Other o))))).

(** What [get_files_from_s3_folder] can return: a Python list or a frame. *)
Inductive pyobject :=
| PyList (l : list string)
| PyDataFrame (df : pd.DataFrame).

Section Program.

Variable B : backend.
Variable T : pd.text.

(** [boto3.Session(...)] builds a local handle; no request is sent and no
    credentials are looked up yet. *)
Definition Session (aws_access_key_id aws_secret_access_key
                    aws_session_token : option string)
                   (region_name : string) : M boto3.Session :=
  let s := boto3.mkSession aws_access_key_id aws_secret_access_key
             aws_session_token region_name in
  emit (SessionCreated s) ;; mret s.

(** [session.client(service_name)] *)
Definition client (session : boto3.Session) (service_name : string)
  : M boto3.client :=
  λ h,
    match create_client B h session service_name with
    | None =>
        let c := boto3.mkClient service_name session in
        (inr c, [ClientCreated c])
    | Some e => (inl e, [ClientRefused session service_name e])
    end.

(** [datetime.now().timestamp()] *)
Definition datetime_now_timestamp : M Q :=
  λ h, let t := clock B h in (inr t, [ClockRead t]).

Definition assume_role (c : boto3.client) (RoleArn : option string)
                       (RoleSessionName : string)
  : M boto3.AssumeRoleOutput :=
  λ h, let r := sts_assume_role B h c RoleArn RoleSessionName in
       (r, [AssumeRoleCall c RoleArn RoleSessionName r]).

Definition list_objects_v2 (c : option boto3.client) (Bucket : string)
                           (Prefix : option string)
  : M boto3.ListObjectsV2Output :=
  match c with
  | None =>
      raise (AttributeError
               "'NoneType' object has no attribute 'list_objects_v2'")
  | Some c =>
      λ h, let r := s3_list_objects_v2 B h c Bucket Prefix in
           (r, [ListObjectsV2Call c Bucket Prefix r])
  end.

(** *** Configuration *)
Definition SOURCE_BUCKET : string := "inversolarmx".
Definition SOURCE_FOLDER : string := "pricelists".

(** *** class AwsConnection *)
Record AwsConnection := mkAwsConnection {
  region_name : string;
  assume_role_arn : option string;
  s3_client : option boto3.client
}.

(** [int(x)] of a float: truncation toward zero, exact on the value. *)
Definition int_of_timestamp (x : Q) : Z := Z.quot (Qnum x) (Z.pos (Qden x)).

Definition role_session_name (timestamp : Q) : string :=
  "S3ExcelProcessor-" +:+ pretty (int_of_timestamp timestamp).

Definition _assume_role (self : AwsConnection) (session : boto3.Session)
  : M boto3.Credentials :=
  try_except
    (sts_client ← client session "sts";
     now ← datetime_now_timestamp;
     response ← assume_role sts_client (assume_role_arn self)
                  (role_session_name now);
     getitem (boto3.Credentials_ response) "Credentials")
    (λ e,
       logger.error ("Failed to assume role "
                     +:+ opt_str (assume_role_arn self)
                     +:+ ": " +:+ exn_str e) ;;
       raise e).

Definition _test_connection (self : AwsConnection) : M unit :=
  try_except
    (response ← list_objects_v2 (s3_client self) SOURCE_BUCKET None;
     name ← getitem (boto3.Name response) "Name";
     logger.info ("Successfully connected to AWS. Founded Buckets: "
                  +:+ name))
    (λ e,
       logger.error ("Failed to connect to AWS S3: " +:+ exn_str e) ;;
       raise e).

(** Returns [self] as left by the method; when the method raises, the
    constructor raises and no object reaches the caller. *)
Definition _initialize_aws_clients (self : AwsConnection)
    (aws_access_key_id aws_secret_access_key : option string)
  : M AwsConnection :=
  try_except
    (session ←
       (if truthy aws_access_key_id && truthy aws_secret_access_key then
          session ← Session aws_access_key_id aws_secret_access_key None
                      (region_name self);
          logger.info "Using provided AWS credentials" ;;
          mret session
        else
          session ← Session None None None (region_name self);
          logger.info "Using default AWS credentials" ;;
          mret session);
     session ←
       (if truthy (assume_role_arn self) then
          logger.info ("Assuming role: " +:+ opt_str (assume_role_arn self)) ;;
          credentials ← _assume_role self session;
          session ← Session (Some (boto3.AccessKeyId credentials))
                      (Some (boto3.SecretAccessKey credentials))
                      (Some (boto3.SessionToken credentials))
                      (region_name self);
          logger.info "Successfully assumed role" ;;
          mret session
        else mret session);
     c ← client session "s3";
     let self := mkAwsConnection (region_name self) (assume_role_arn self)
                   (Some c) in
     _test_connection self ;;
     mret self)
    (λ e,
       logger.error ("Failed to initialize AWS clients: " +:+ exn_str e) ;;
       raise e).

(** [AwsConnection.__init__] *)
Definition __init__ (assume_role_arn aws_access_key_id
                     aws_secret_access_key : option string)
                    (region_name : string) : M AwsConnection :=
  let self := mkAwsConnection region_name assume_role_arn None in
  _initialize_aws_clients self aws_access_key_id aws_secret_access_key.

(** The frame built from [response["Contents"]]: lines between the two
    log records of [get_files_from_s3_folder]. *)
Definition files_dataframe (contents : list boto3.Object)
  : exn + pd.DataFrame :=
  let files_df := pd.from_records (Object_items <$> contents) in
  match pd.getitem files_df "Key" with
  | inl e => inl e
  | inr key =>
      let files_df := pd.setitem files_df "Key" (pd.astype_str T key) in
      match pd.getitem files_df "LastModified" with
      | inl e => inl e
      | inr last_modified =>
          match pd.to_datetime_utc T last_modified with
          | inl e => inl e
          | inr last_modified =>
              let files_df :=
                pd.setitem files_df "LastModified" last_modified in
              match pd.getitem files_df "LastModified" with
              | inl e => inl e
              | inr last_modified =>
                  match pd.dt_tz_convert last_modified
                          "America/Mexico_City" with
                  | inl e => inl e
                  | inr last_modified =>
                      inr (pd.setitem files_df "LastModified" last_modified)
                  end
              end
          end
      end
  end.

Definition get_files_from_s3_folder (self : AwsConnection) : M pyobject :=
  try_except
    (let prefix :=
       if truthy (Some SOURCE_FOLDER) then SOURCE_FOLDER +:+ "/"
       else EmptyString in
     response ← list_objects_v2 (s3_client self) SOURCE_BUCKET None;
     match boto3.Contents response with
     | None =>
         logger.info "No files found in the source folder" ;;
         mret (PyList [])
     | Some contents =>
         logger.info ("Found " +:+ pretty (length contents)
                      +:+ " objects in source folder") ;;
         files_df ← answer (files_dataframe contents);
         logger.info ("Files DataFrame created with "
                      +:+ pretty (pd.index files_df) +:+ " rows and "
                      +:+ pretty (size (pd.columns files_df))
                      +:+ " columns") ;;
         mret (PyDataFrame files_df)
     end)
    (λ e,
       logger.error ("Error getting files from S3: " +:+ exn_str e) ;;
       mret (PyList [])).

(** [s * n] *)
Fixpoint str_mul (s : string) (n : nat) : string :=
  match n with
  | O => EmptyString
  | S n => s +:+ str_mul s n
  end.

(** [run_manual_test]; [environ] is [os.environ], so [environ !! key] is
    [os.environ.get(key)]. *)
Definition run_manual_test (environ : gmap string string)
    (aws_access_key_id aws_secret_access_key assume_role_arn
     region_name : option string) : M bool :=
  try_except
    (logger.info "Starting manual test execution" ;;
     logger.info (str_mul "=" 50) ;;
     let aws_access_key_id :=
       if truthy aws_access_key_id then aws_access_key_id
       else environ !! "AWS_ACCESS_KEY_ID" in
     let aws_secret_access_key :=
       if truthy aws_secret_access_key then aws_secret_access_key
       else environ !! "AWS_SECRET_ACCESS_KEY" in
     let assume_role_arn :=
       if truthy assume_role_arn then assume_role_arn
       else environ !! "ASSUME_ROLE_ARN" in
     let region_name :=
       if truthy region_name then opt_str region_name
       else default "us-east-1" (environ !! "AWS_DEFAULT_REGION") in
     aws_client ← __init__ assume_role_arn aws_access_key_id
                    aws_secret_access_key region_name;
     get_files_from_s3_folder aws_client ;;
     mret true)
    (λ e, raise e).

End Program.

(** * Properties *)

(** ** Reading a history *)

Definition is_list_call (e : event) : bool :=
  match e with
  | ListObjectsV2Call _ _ _ _ => true
  | _ => false
  end.

Definition is_assume_call (e : event) : bool :=
  match e with
  | AssumeRoleCall _ _ _ _ => true
  | _ => false
  end.

(** The session names passed to [assume_role], in order. *)
Definition session_names (ev : list event) : list string :=
  omap (λ e, match e with
             | AssumeRoleCall _ _ name _ => Some name
             | _ => None
             end) ev.

Definition is_refused_client (service_name : string) (e : event) : bool :=
  match e with
  | ClientRefused _ name _ => bool_decide (name = service_name)
  | _ => false
  end.


(** The clients created, in order. *)
Definition clients (ev : list event) : list boto3.client :=
  omap (λ e, match e with
             | ClientCreated c => Some c
             | _ => None
             end) ev.

(** The session that holds exactly the temporary credentials [cr]. *)
Definition temporary_session (cr : boto3.Credentials) (region : string)
  : boto3.Session :=
  boto3.mkSession (Some (boto3.AccessKeyId cr))
    (Some (boto3.SecretAccessKey cr)) (Some (boto3.SessionToken cr)) region.


(** The instants of the entries as timestamps shown in zone [tz]:
    nanoseconds are microseconds times 1000. *)
Definition last_modified_in (tz : string) (contents : list boto3.Object)
  : list pd.cell :=
  (λ o, pd.CTimestamp
          (pd.mkTimestamp (1000 * dt_us (boto3.LastModified o)) (Some tz)))
    <$> contents.

Definition is_error_log (e : event) : bool :=
  match e with
  | Logged ERROR _ => true
  | _ => false
  end.

(** The sessions created, in order. *)
Definition sessions (ev : list event) : list boto3.Session :=
  omap (λ e, match e with
             | SessionCreated s => Some s
             | _ => None
             end) ev.

(** The clock readings taken, in order. *)
Definition clock_reads (ev : list event) : list Q :=
  omap (λ e, match e with
             | ClockRead t => Some t
             | _ => None
             end) ev.


(** The claim that two role assumptions never pass the same session
    name. *)
Definition session_names_never_reused : Prop :=
  ∀ (B : backend) (self : AwsConnection) (s1 s2 : boto3.Session)
    (h : list event),
    truthy (assume_role_arn self) = true →
    let ev1 := (run (_assume_role B self s1) h).2 in
    let ev2 := (run (_assume_role B self s2) (h ++ ev1)).2 in
    ∀ n1 n2, n1 ∈ session_names ev1 → n2 ∈ session_names ev2 → n1 ≠ n2.

(** ** Sample backends *)

Module Examples.

Definition temporary : boto3.Credentials :=
  boto3.mkCredentials "ASIAEXAMPLE" "temporary-secret" "session-token"
    (Datetime 1700003600000000 (Some "UTC")).

Definition entry1 : boto3.Object :=
  boto3.mkObject "pricelists/2025-05.xlsx"
    (Datetime 1700000000123456 (Some "UTC")) "etag-1" 2048 "STANDARD" ∅.

Definition entry2 : boto3.Object :=
  boto3.mkObject "pricelists/2025-06.xlsx"
    (Datetime 1702592000000001 (Some "UTC")) "etag-2" 4096 "STANDARD"
    (<["ChecksumAlgorithm" := pd.CObject "['CRC64NVME']"]>
     (<["ChecksumType" := pd.CStr "FULL_OBJECT"]> ∅)).

Definition granted : exn + boto3.AssumeRoleOutput :=
  inr (boto3.mkAssumeRoleOutput (Some temporary)).

Definition denied : exn :=
  ClientError "AccessDenied" "not authorized to perform sts:AssumeRole"
    "AssumeRole".

Definition listed (contents : option (list boto3.Object))
  : exn + boto3.ListObjectsV2Output :=
  inr (boto3.mkListObjectsV2Output (Some "inversolarmx") contents).

(** A clock that advances one microsecond with every event. *)
Definition ticking (h : list event) : Q :=
  Qmake (1700000000250000 + Z.of_nat (length h)) 1000000.

(** Every client can be built. *)
Definition reachable : list event → boto3.Session → string → option exn :=
  λ _ _ _, None.

(** No endpoint can be built for an empty region. *)
Definition endpoint_for_region
  : list event → boto3.Session → string → option exn :=
  λ _ s name,
    match boto3.region_name s with
    | EmptyString =>
        Some (ValueError
                ("Invalid endpoint: https://" +:+ name +:+ "..amazonaws.com"))
    | _ => None
    end.

(** Everything is granted; the bucket holds two objects. *)
Definition serving : backend :=
  mkBackend reachable (λ _ _ _ _, granted)
    (λ _ _ _ _, listed (Some [entry1; entry2])) ticking.

(** The role cannot be assumed. *)
Definition rejecting : backend :=
  mkBackend reachable (λ _ _ _ _, inl denied)
    (λ _ _ _ _, listed (Some [entry1; entry2])) ticking.

(** The storage service cannot be reached. *)
Definition unreachable : backend :=
  mkBackend reachable (λ _ _ _ _, granted)
    (λ _ _ _ _, inl (BotoCoreError "Could not connect to the endpoint URL"))
    ticking.

(** The first listing succeeds, every later one fails. *)
Definition flaky : backend :=
  mkBackend reachable (λ _ _ _ _, granted)
    (λ h _ _ _,
       if existsb is_list_call h
       then inl (BotoCoreError "Could not connect to the endpoint URL")
       else listed (Some [entry1; entry2]))
    ticking.

(** The bucket is empty: the response has no [Contents]. *)
Definition empty_bucket : backend :=
  mkBackend reachable (λ _ _ _ _, granted) (λ _ _ _ _, listed None) ticking.

(** A response whose [Contents] is present but holds nothing. *)
Definition blank_bucket : backend :=
  mkBackend reachable (λ _ _ _ _, granted) (λ _ _ _ _, listed (Some [])) ticking.

Definition text0 : pd.text :=
  pd.mkText (λ _, "datetime") (λ _, "Timestamp") (λ _, None).

Definition role : option string := Some "arn:aws:iam::123:role/X".

(** The frame of the two entries. *)
Definition frame : pd.DataFrame :=
  match files_dataframe text0 [entry1; entry2] with
  | inr df => df
  | inl _ => pd.mkDataFrame 0 ∅
  end.

(** Everything is granted where an endpoint exists. *)
Definition regional : backend :=
  mkBackend endpoint_for_region (λ _ _ _ _, granted)
    (λ _ _ _ _, listed (Some [entry1; entry2])) ticking.

(** A connection made through assumed credentials. *)
Definition delegated : AwsConnection :=
  mkAwsConnection "us-east-1" role
    (Some (boto3.mkClient "s3" (temporary_session temporary "us-east-1"))).

(** An environment that carries keys and a region, but no role. *)
Definition environ : gmap string string :=
  <["AWS_ACCESS_KEY_ID" := "AKIAENVIRON"]>
  (<["AWS_SECRET_ACCESS_KEY" := "environ-secret"]>
  (<["AWS_DEFAULT_REGION" := "eu-west-1"]> ∅)).

(** The listing is answered, but the response has no [Name]. *)
Definition nameless : backend :=
  mkBackend reachable (λ _ _ _ _, granted)
    (λ _ _ _ _, inr (boto3.mkListObjectsV2Output None (Some [entry1])))
    ticking.

(** The role is granted, but the response has no [Credentials]. *)
Definition uncredentialed : backend :=
  mkBackend reachable (λ _ _ _ _, inr (boto3.mkAssumeRoleOutput None))
    (λ _ _ _ _, listed (Some [entry1; entry2])) ticking.

(** A connection whose client was built on the default session. *)
Definition connected : AwsConnection :=
  mkAwsConnection "us-east-1" None
    (Some (boto3.mkClient "s3"
             (boto3.mkSession None None None "us-east-1"))).

End Examples.

(** ** Proof steps *)

Ltac unfold_M :=
  unfold __init__, _initialize_aws_clients, _test_connection, _assume_role,
    get_files_from_s3_folder, Session, client, datetime_now_timestamp,
    assume_role, list_objects_v2, getitem, answer, logger.info, logger.error,
    emit, try_except, mbind, M_bind, bind, mret, M_ret, ret, raise, run in *.

(** Split on the innermost scrutinee first: the outcome of a [truthy] test
    or the answer of the backend. *)
Ltac case_split :=
  repeat (cbn;
    match goal with
    | |- context [match ?x with _ => _ end] =>
        lazymatch x with
        | context [match _ with _ => _ end] => fail
        | _ => destruct x eqn:?
        end
    end).

(** Decide membership of an event in an explicit history. *)
Ltac elem_of_history :=
  cbn [fst snd app] in *;
  repeat match goal with
         | H : _ ∈ [] |- _ => by apply elem_of_nil in H
         | H : _ ∈ _ :: _ |- _ =>
             apply elem_of_cons in H as [H|H]; simplify_eq/=
         end.

(** ** The frame of object entries *)

Lemma lookup_from_records data label :
  pd.columns (pd.from_records data) !! label =
    if decide (label ∈ pd.column_names data)
    then Some (pd.column data label) else None.
Proof.
  unfold pd.from_records; cbn.
  destruct (decide _) as [Hin|Hnin].
  - apply lookup_set_to_map; [naive_solver|]. eauto.
  - apply eq_None_not_Some. intros [col Hcol].
    apply lookup_set_to_map in Hcol as (k & Hk & Heq); [|naive_solver].
    by simplify_eq/=.
Qed.

Lemma Object_items_Key o :
  Object_items o !! "Key" = Some (pd.CStr (boto3.Key o)).
Proof. unfold Object_items. by rewrite lookup_insert_eq. Qed.

Lemma Object_items_LastModified o :
  Object_items o !! "LastModified"
  = Some (pd.CDatetime (boto3.LastModified o)).
Proof.
  unfold Object_items. rewrite lookup_insert_ne by done.
  by rewrite lookup_insert_eq.
Qed.

Lemma column_names_objects o contents label :
  is_Some (Object_items o !! label) →
  label ∈ pd.column_names (Object_items <$> o :: contents).
Proof.
  intros Hl. unfold pd.column_names. rewrite fmap_cons. cbn.
  apply elem_of_union_l. by apply elem_of_dom.
Qed.

Lemma column_objects_Key contents :
  pd.column (Object_items <$> contents) "Key"
  = (λ o, pd.CStr (boto3.Key o)) <$> contents.
Proof.
  unfold pd.column. rewrite <- list_fmap_compose.
  apply list_fmap_ext. intros i o _. cbn. by rewrite Object_items_Key.
Qed.

Lemma column_objects_LastModified contents :
  pd.column (Object_items <$> contents) "LastModified"
  = (λ o, pd.CDatetime (boto3.LastModified o)) <$> contents.
Proof.
  unfold pd.column. rewrite <- list_fmap_compose.
  apply list_fmap_ext. intros i o _. cbn.
  by rewrite Object_items_LastModified.
Qed.

Lemma traverse_fmap {A} (f : pd.cell → exn + pd.cell) (g g' : A → pd.cell)
    (l : list A) :
  (∀ a, f (g a) = inr (g' a)) →
  pd.traverse f (g <$> l) = inr (g' <$> l).
Proof.
  intros Hf. induction l as [|a l IH]; [reflexivity|].
  rewrite !fmap_cons. cbn. by rewrite Hf, IH.
Qed.

Lemma files_dataframe_nil T : files_dataframe T [] = inl (KeyError "Key").
Proof. reflexivity. Qed.

Lemma files_dataframe_cons T o contents :
  files_dataframe T (o :: contents) =
    inr (pd.setitem
           (pd.setitem
              (pd.setitem (pd.from_records (Object_items <$> o :: contents))
                 "Key" ((λ o, pd.CStr (boto3.Key o)) <$> o :: contents))
              "LastModified" (last_modified_in "UTC" (o :: contents)))
           "LastModified"
           (last_modified_in "America/Mexico_City" (o :: contents))).
Proof.
  unfold files_dataframe.
  unfold pd.getitem at 1. rewrite lookup_from_records.
  rewrite decide_True
    by (apply column_names_objects; rewrite Object_items_Key; eauto).
  rewrite column_objects_Key.
  assert (pd.astype_str T ((λ o, pd.CStr (boto3.Key o)) <$> o :: contents)
          = (λ o, pd.CStr (boto3.Key o)) <$> o :: contents) as ->.
  { unfold pd.astype_str. rewrite <- list_fmap_compose.
    by apply list_fmap_ext. }
  unfold pd.getitem at 1. unfold pd.setitem at 1. cbn [pd.columns].
  rewrite lookup_insert_ne by done. rewrite lookup_from_records.
  rewrite decide_True
    by (apply column_names_objects; rewrite Object_items_LastModified; eauto).
  rewrite column_objects_LastModified.
  unfold pd.to_datetime_utc.
  rewrite (traverse_fmap _ _
             (λ o, pd.CTimestamp
                     (pd.mkTimestamp (1000 * dt_us (boto3.LastModified o))
                        (Some "UTC")))) by done.
  unfold pd.getitem, pd.setitem at 1. cbn [pd.columns].
  rewrite lookup_insert_eq.
  unfold pd.dt_tz_convert.
  rewrite (traverse_fmap _ _
             (λ o, pd.CTimestamp
                     (pd.mkTimestamp (1000 * dt_us (boto3.LastModified o))
                        (Some "America/Mexico_City")))) by done.
  reflexivity.
Qed.

Arguments files_dataframe : simpl never.

(** ** Closed forms of the methods *)

Lemma run__assume_role B self session h :
  run (_assume_role B self session) h =
    let failed e :=
      Logged ERROR ("Failed to assume role "
                    +:+ opt_str (assume_role_arn self)
                    +:+ ": " +:+ exn_str e) in
    match create_client B h session "sts" with
    | Some e => (inl e, [ClientRefused session "sts" e; failed e])
    | None =>
        let c := boto3.mkClient "sts" session in
        let now := clock B (h ++ [ClientCreated c]) in
        let name := role_session_name now in
        let ans :=
          sts_assume_role B (h ++ [ClientCreated c; ClockRead now]) c
            (assume_role_arn self) name in
        let evs :=
          [ClientCreated c; ClockRead now;
           AssumeRoleCall c (assume_role_arn self) name ans] in
        match ans with
        | inr out =>
            match boto3.Credentials_ out with
            | Some cr => (inr cr, evs)
            | None =>
                (inl (KeyError "Credentials"),
                 evs ++ [failed (KeyError "Credentials")])
            end
        | inl e => (inl e, evs ++ [failed e])
        end
    end.
Proof.
  unfold_M. destruct (create_client B h session "sts") as [e|]; [done|].
  cbn. rewrite <- !(assoc_L (++)). cbn.
  destruct (sts_assume_role B _ _ _ _) as [e|out]; cbn; [done|].
  by destruct (boto3.Credentials_ out).
Qed.

Lemma run_get_files_from_s3_folder B T self h :
  run (get_files_from_s3_folder B T self) h =
    let failed e :=
      Logged ERROR ("Error getting files from S3: " +:+ exn_str e) in
    match s3_client self with
    | None =>
        let e :=
          AttributeError
            "'NoneType' object has no attribute 'list_objects_v2'" in
        (inr (PyList []), [failed e])
    | Some c =>
        let ans := s3_list_objects_v2 B h c SOURCE_BUCKET None in
        let call := ListObjectsV2Call c SOURCE_BUCKET None ans in
        match ans with
        | inl e => (inr (PyList []), [call; failed e])
        | inr out =>
            match boto3.Contents out with
            | None =>
                (inr (PyList []),
                 [call; Logged INFO "No files found in the source folder"])
            | Some contents =>
                let found :=
                  Logged INFO ("Found " +:+ pretty (length contents)
                               +:+ " objects in source folder") in
                match files_dataframe T contents with
                | inl e => (inr (PyList []), [call; found; failed e])
                | inr df =>
                    (inr (PyDataFrame df),
                     [call; found;
                      Logged INFO ("Files DataFrame created with "
                                   +:+ pretty (pd.index df) +:+ " rows and "
                                   +:+ pretty (size (pd.columns df))
                                   +:+ " columns")])
                end
            end
        end
    end.
Proof.
  unfold_M. destruct (s3_client self) as [c|]; cbn; [|done].
  destruct (s3_list_objects_v2 B h c SOURCE_BUCKET None) as [e|out];
    cbn; [done|].
  destruct (boto3.Contents out) as [contents|]; cbn; [|done].
  by destruct (files_dataframe T contents).
Qed.


(** ** Construction *)




(** The sample run with a role: the call is made, through the STS client
    of the base session, and the returned object lists through the session
    of the temporary credentials. *)
Example sample_role_run :
  let r := run (__init__ Examples.serving Examples.role (Some "AKIAEXAMPLE")
                  (Some "long-term-secret") "us-east-1") [] in
  List.filter is_assume_call r.2
  = [AssumeRoleCall
       (boto3.mkClient "sts"
          (boto3.mkSession (Some "AKIAEXAMPLE") (Some "long-term-secret")
             None "us-east-1"))
       Examples.role "S3ExcelProcessor-1700000000" Examples.granted] ∧
  r.1 = inr Examples.delegated.
Proof. split; reflexivity. Qed.



(** An access key id given as the empty string counts as missing: the
    base session falls back to default discovery. *)
Lemma empty_key_is_missing B arn sk region h :
  head (run (__init__ B arn (Some EmptyString) sk region) h).2
  = Some (SessionCreated (boto3.mkSession None None None region)).
Proof. unfold_M. case_split; reflexivity. Qed.

(** A role given as the empty string counts as no role: [assume_role] is
    not called. *)
Lemma empty_role_is_no_role B ak sk region h :
  List.filter is_assume_call
    (run (__init__ B (Some EmptyString) ak sk region) h).2 = [].
Proof. unfold_M. case_split; reflexivity. Qed.

(** C3.  A constructor that returns has made exactly one listing call, on
    the source bucket through the client it keeps, and that call was
    answered; whenever a listing call of the constructor fails, the
    constructor raises that very exception.  So no object is returned whose
    connection was not checked. *)
Theorem construction_checks_connectivity B arn ak sk region h :
  let r := run (__init__ B arn ak sk region) h in
  (∀ self,
     r.1 = inr self →
     ∃ c out,
       s3_client self = Some c ∧
       List.filter is_list_call r.2
       = [ListObjectsV2Call c SOURCE_BUCKET None (inr out)]) ∧
  (∀ c b p e, ListObjectsV2Call c b p (inl e) ∈ r.2 → r.1 = inl e).
Proof.
  intros r. subst r. unfold_M. case_split.
  all: split; [intros; simplify_eq/=; eauto|].
  all: intros; elem_of_history; done.
Qed.

Lemma construction_checks_connectivity_witness :
  let r := run (__init__ Examples.unreachable None None None "us-east-1") [] in
  (∀ self,
     r.1 = inr self →
     ∃ c out,
       s3_client self = Some c ∧
       List.filter is_list_call r.2
       = [ListObjectsV2Call c SOURCE_BUCKET None (inr out)]) ∧
  (∀ c b p e, ListObjectsV2Call c b p (inl e) ∈ r.2 → r.1 = inl e).
Proof.
  apply (construction_checks_connectivity Examples.unreachable None None None
           "us-east-1" []).
Defined.

(** C5.  When the [assume_role] call of the constructor is rejected, the
    constructor raises the exception of the rejection and its history holds
    no listing call; as no object is returned, no enumeration can follow. *)
Theorem rejected_role_aborts_construction B arn ak sk region h c a name e :
  let r := run (__init__ B arn ak sk region) h in
  AssumeRoleCall c a name (inl e) ∈ r.2 →
  r.1 = inl e ∧ List.filter is_list_call r.2 = [].
Proof.
  intros r. subst r. unfold_M. case_split.
  all: intros; elem_of_history; done.
Qed.

Lemma rejected_role_aborts_construction_witness :
  let r := run (__init__ Examples.rejecting Examples.role None None
                  "us-east-1") [] in
  AssumeRoleCall
    (boto3.mkClient "sts" (boto3.mkSession None None None "us-east-1"))
    Examples.role "S3ExcelProcessor-1700000000" (inl Examples.denied) ∈ r.2 ∧
  r.1 = inl Examples.denied ∧ List.filter is_list_call r.2 = [].
Proof.
  assert (AssumeRoleCall
            (boto3.mkClient "sts" (boto3.mkSession None None None "us-east-1"))
            Examples.role "S3ExcelProcessor-1700000000" (inl Examples.denied)
          ∈ (run (__init__ Examples.rejecting Examples.role None None
                    "us-east-1") []).2) as Hin.
  { apply list_elem_of_In. vm_compute. tauto. }
  split; [exact Hin|].
  exact (rejected_role_aborts_construction Examples.rejecting Examples.role
           None None "us-east-1" [] _ _ _ _ Hin).
Defined.

(** A constructor that returns keeps a client. *)
Lemma constructed_has_client B arn ak sk region h self :
  (run (__init__ B arn ak sk region) h).1 = inr self →
  is_Some (s3_client self).
Proof.
  unfold_M. case_split; intros; simplify_eq/=; eauto.
Qed.

(** ** Listing *)

(** C4.  [get_files_from_s3_folder] never raises.  When the listing call
    raises, and when building the frame from the entries raises, the
    exception is caught and the empty list is returned: the same value as
    for a response without [Contents], the answer for an empty bucket. *)
Theorem listing_errors_degrade_to_empty B T self h :
  let r := run (get_files_from_s3_folder B T self) h in
  (∃ v, r.1 = inr v) ∧
  (∀ c b p e,
     ListObjectsV2Call c b p (inl e) ∈ r.2 → r.1 = inr (PyList [])) ∧
  (∀ c b p out contents e,
     ListObjectsV2Call c b p (inr out) ∈ r.2 →
     boto3.Contents out = Some contents →
     files_dataframe T contents = inl e →
     r.1 = inr (PyList [])) ∧
  (∀ c b p out,
     ListObjectsV2Call c b p (inr out) ∈ r.2 →
     boto3.Contents out = None →
     r.1 = inr (PyList [])).
Proof.
  intros r. subst r. rewrite run_get_files_from_s3_folder.
  destruct (s3_client self) as [c'|]; case_split.
  all: split_and!; [by eexists|..].
  all: intros; elem_of_history; congruence.
Qed.

Lemma listing_errors_degrade_to_empty_witness :
  let r := run (get_files_from_s3_folder Examples.unreachable Examples.text0
                  Examples.connected) [] in
  (∃ v, r.1 = inr v) ∧
  (∀ c b p e,
     ListObjectsV2Call c b p (inl e) ∈ r.2 → r.1 = inr (PyList [])) ∧
  (∀ c b p out contents e,
     ListObjectsV2Call c b p (inr out) ∈ r.2 →
     boto3.Contents out = Some contents →
     files_dataframe Examples.text0 contents = inl e →
     r.1 = inr (PyList [])) ∧
  (∀ c b p out,
     ListObjectsV2Call c b p (inr out) ∈ r.2 →
     boto3.Contents out = None →
     r.1 = inr (PyList [])).
Proof.
  apply (listing_errors_degrade_to_empty Examples.unreachable Examples.text0
           Examples.connected []).
Defined.

(** C6.  On a constructed connection, [get_files_from_s3_folder] issues
    exactly one listing call: through the client of the connection, on the
    source bucket, and with no [Prefix] argument. *)
Theorem listing_issues_one_unfiltered_call B T arn ak sk region h0 self h :
  (run (__init__ B arn ak sk region) h0).1 = inr self →
  ∃ c ans,
    s3_client self = Some c ∧
    List.filter is_list_call (run (get_files_from_s3_folder B T self) h).2
    = [ListObjectsV2Call c SOURCE_BUCKET None ans].
Proof.
  intros [c Hc]%constructed_has_client.
  rewrite run_get_files_from_s3_folder, Hc.
  exists c, (s3_list_objects_v2 B h c SOURCE_BUCKET None).
  split; [done|]. case_split; reflexivity.
Qed.

Lemma listing_issues_one_unfiltered_call_witness :
  (run (__init__ Examples.serving None None None "us-east-1") []).1
  = inr Examples.connected ∧
  ∃ c ans,
    s3_client Examples.connected = Some c ∧
    List.filter is_list_call
      (run (get_files_from_s3_folder Examples.serving Examples.text0
              Examples.connected) []).2
    = [ListObjectsV2Call c SOURCE_BUCKET None ans].
Proof.
  split; [reflexivity|].
  apply (listing_issues_one_unfiltered_call Examples.serving Examples.text0
           None None None "us-east-1" [] Examples.connected []).
  reflexivity.
Defined.

(** C7.  In a returned frame the [LastModified] column has one value per
    entry of the response, in order; the value for an entry is the
    timestamp of the same instant (its microseconds times 1000, in
    nanoseconds) shown in America/Mexico_City, and every value of the
    column carries a zone. *)
Theorem last_modified_same_instant_in_target_zone B T self h df :
  let r := run (get_files_from_s3_folder B T self) h in
  r.1 = inr (PyDataFrame df) →
  ∃ c out contents col,
    ListObjectsV2Call c SOURCE_BUCKET None (inr out) ∈ r.2 ∧
    boto3.Contents out = Some contents ∧
    pd.columns df !! "LastModified" = Some col ∧
    length col = length contents ∧
    (∀ (i : nat) o,
       contents !! i = Some o →
       col !! i
       = Some (pd.CTimestamp
                 (pd.mkTimestamp (1000 * dt_us (boto3.LastModified o))
                    (Some "America/Mexico_City")))) ∧
    Forall (λ v, ∃ t, v = pd.CTimestamp t ∧ is_Some (pd.ts_tz t)) col.
Proof.
  intros r. subst r. rewrite run_get_files_from_s3_folder.
  destruct (s3_client self) as [c|]; [|done].
  cbn zeta.
  destruct (s3_list_objects_v2 B h c SOURCE_BUCKET None) as [e|out]; [done|].
  destruct (boto3.Contents out) as [contents|] eqn:Hcontents; [|done].
  destruct contents as [|o contents];
    [by rewrite files_dataframe_nil|].
  rewrite files_dataframe_cons. cbn [fst snd]. intros [= <-].
  exists c, out, (o :: contents),
    (last_modified_in "America/Mexico_City" (o :: contents)).
  split_and!.
  - apply elem_of_cons; by left.
  - done.
  - cbn [pd.setitem pd.columns]. by rewrite lookup_insert_eq.
  - unfold last_modified_in. by rewrite length_fmap.
  - intros i o' Hi. unfold last_modified_in.
    by rewrite list_lookup_fmap, Hi.
  - unfold last_modified_in. apply Forall_fmap, Forall_true.
    intros o'. cbn. eauto.
Qed.

Lemma last_modified_same_instant_in_target_zone_witness :
  let r := run (get_files_from_s3_folder Examples.serving Examples.text0
                  Examples.connected) [] in
  r.1 = inr (PyDataFrame Examples.frame) ∧
  ∃ c out contents col,
    ListObjectsV2Call c SOURCE_BUCKET None (inr out) ∈ r.2 ∧
    boto3.Contents out = Some contents ∧
    pd.columns Examples.frame !! "LastModified" = Some col ∧
    length col = length contents ∧
    (∀ (i : nat) o,
       contents !! i = Some o →
       col !! i
       = Some (pd.CTimestamp
                 (pd.mkTimestamp (1000 * dt_us (boto3.LastModified o))
                    (Some "America/Mexico_City")))) ∧
    Forall (λ v, ∃ t, v = pd.CTimestamp t ∧ is_Some (pd.ts_tz t)) col.
Proof.
  assert ((run (get_files_from_s3_folder Examples.serving Examples.text0
                  Examples.connected) []).1
          = inr (PyDataFrame Examples.frame)) as Hrun
    by (vm_compute; reflexivity).
  split; [exact Hrun|].
  exact (last_modified_same_instant_in_target_zone Examples.serving
           Examples.text0 Examples.connected [] Examples.frame Hrun).
Defined.

(** The frame of the sample listing, evaluated: both instants keep their
    microseconds. *)
Example sample_last_modified :
  pd.columns Examples.frame !! "LastModified"
  = Some [pd.CTimestamp
            (pd.mkTimestamp 1700000000123456000 (Some "America/Mexico_City"));
          pd.CTimestamp
            (pd.mkTimestamp 1702592000000001000 (Some "America/Mexico_City"))].
Proof. vm_compute. reflexivity. Qed.

(** C9.  When the listing call is answered with no entries (no [Contents]
    member, or an empty one), [get_files_from_s3_folder] returns the empty
    list and does not raise; for a response without [Contents] no error is
    logged either. *)
Theorem empty_listing_returns_empty_list B T self h c b p out :
  let r := run (get_files_from_s3_folder B T self) h in
  ListObjectsV2Call c b p (inr out) ∈ r.2 →
  boto3.Contents out = None ∨ boto3.Contents out = Some [] →
  r.1 = inr (PyList []) ∧
  (boto3.Contents out = None → ∀ msg, Logged ERROR msg ∉ r.2).
Proof.
  intros r. subst r. rewrite run_get_files_from_s3_folder.
  destruct (s3_client self) as [c'|]; [|intros; elem_of_history].
  cbn zeta.
  destruct (s3_list_objects_v2 B h c' SOURCE_BUCKET None) as [e|out'];
    [intros; elem_of_history|].
  destruct (boto3.Contents out') as [contents|] eqn:Hcontents.
  - destruct (files_dataframe T contents) as [e|df] eqn:Hdf.
    + intros Hin Hempty. elem_of_history.
      split; [done|]. intros Hnone. congruence.
    + intros Hin Hempty. elem_of_history.
      destruct Hempty as [Hnone|Hnil]; [congruence|].
      rewrite Hcontents in Hnil. injection Hnil as ->.
      by rewrite files_dataframe_nil in Hdf.
  - intros Hin _. elem_of_history. split; [done|].
    intros _ msg Hmsg. elem_of_history.
Qed.

Lemma empty_listing_returns_empty_list_witness :
  let r := run (get_files_from_s3_folder Examples.empty_bucket Examples.text0
                  Examples.connected) [] in
  let c := boto3.mkClient "s3" (boto3.mkSession None None None "us-east-1") in
  let out := boto3.mkListObjectsV2Output (Some "inversolarmx") None in
  ListObjectsV2Call c SOURCE_BUCKET None (inr out) ∈ r.2 ∧
  (boto3.Contents out = None ∨ boto3.Contents out = Some []) ∧
  r.1 = inr (PyList []) ∧
  (boto3.Contents out = None → ∀ msg, Logged ERROR msg ∉ r.2).
Proof.
  intros r c out.
  assert (ListObjectsV2Call c SOURCE_BUCKET None (inr out) ∈ r.2) as Hin.
  { apply list_elem_of_In. vm_compute. tauto. }
  assert (boto3.Contents out = None ∨ boto3.Contents out = Some []) as Hempty.
  { left. reflexivity. }
  split; [exact Hin|]. split; [exact Hempty|].
  exact (empty_listing_returns_empty_list Examples.empty_bucket Examples.text0
           Examples.connected [] c SOURCE_BUCKET None out Hin Hempty).
Defined.

(** C10.  The result of [get_files_from_s3_folder] on a connection with a
    client is a frame or a list, depending on what the listing call is
    answered: a response with at least one entry gives a frame with one
    row per entry, whose [Key] column holds the keys of the entries; a
    response with no entries, a failed call, and every run in which an
    exception was caught (an error was logged), gives the empty list; and
    a frame is never a list. *)
Theorem listing_result_has_two_types B T self c h :
  s3_client self = Some c →
  let r := run (get_files_from_s3_folder B T self) h in
  let ans := s3_list_objects_v2 B h c SOURCE_BUCKET None in
  (∀ out o contents,
     ans = inr out →
     boto3.Contents out = Some (o :: contents) →
     ∃ df,
       r.1 = inr (PyDataFrame df) ∧
       pd.index df = length (o :: contents) ∧
       pd.columns df !! "Key"
       = Some ((λ o, pd.CStr (boto3.Key o)) <$> o :: contents)) ∧
  (∀ out,
     ans = inr out →
     boto3.Contents out = None ∨ boto3.Contents out = Some [] →
     r.1 = inr (PyList [])) ∧
  (∀ e, ans = inl e → r.1 = inr (PyList [])) ∧
  (∀ msg, Logged ERROR msg ∈ r.2 → r.1 = inr (PyList [])) ∧
  (∀ df l, PyDataFrame df ≠ PyList l).
Proof.
  intros Hc r ans. subst r ans. rewrite run_get_files_from_s3_folder, Hc.
  cbn zeta.
  destruct (s3_list_objects_v2 B h c SOURCE_BUCKET None) as [e|out'];
    [split_and!; intros; elem_of_history; done|].
  destruct (boto3.Contents out') as [[|o' contents']|] eqn:Hcontents.
  - rewrite files_dataframe_nil.
    split_and!; intros; destruct_or?; simplify_eq; elem_of_history;
      congruence.
  - rewrite files_dataframe_cons.
    split_and!; intros; destruct_or?; simplify_eq; elem_of_history;
      try congruence.
    eexists. split_and!; [reflexivity| |].
    + cbn. rewrite length_fmap. congruence.
    + cbn [pd.setitem pd.columns].
      rewrite !lookup_insert_ne, lookup_insert_eq by done. congruence.
  - split_and!; intros; destruct_or?; simplify_eq; elem_of_history;
      congruence.
Qed.

Lemma listing_result_has_two_types_witness :
  let c := boto3.mkClient "s3" (boto3.mkSession None None None "us-east-1") in
  let r := run (get_files_from_s3_folder Examples.serving Examples.text0
                  Examples.connected) [] in
  s3_client Examples.connected = Some c ∧
  ∃ df,
    r.1 = inr (PyDataFrame df) ∧
    pd.index df = 2%nat ∧
    pd.columns df !! "Key"
    = Some [pd.CStr "pricelists/2025-05.xlsx";
            pd.CStr "pricelists/2025-06.xlsx"].
Proof.
  intros c r.
  assert (s3_client Examples.connected = Some c) as Hc by reflexivity.
  split; [exact Hc|].
  exact (proj1 (listing_result_has_two_types Examples.serving Examples.text0
                  Examples.connected c [] Hc)
           _ Examples.entry1 [Examples.entry2] eq_refl eq_refl).
Defined.

(** ** Session names *)

(** Two session names are equal exactly when the whole seconds of the two
    clock readings are. *)
Lemma role_session_name_eq t1 t2 :
  role_session_name t1 = role_session_name t2
  ↔ int_of_timestamp t1 = int_of_timestamp t2.
Proof.
  unfold role_session_name. split; [|by intros ->].
  intros Heq%(inj (String.append _)). by apply (inj pretty) in Heq.
Qed.

(** The session names of a role assumption, read off its history: one
    name per clock reading, and one clock reading unless the STS client
    cannot be built. *)
Lemma session_names__assume_role B self session h :
  let ev := (run (_assume_role B self session) h).2 in
  session_names ev = role_session_name <$> clock_reads ev ∧
  (length (clock_reads ev) ≤ 1)%nat ∧
  (create_client B h session "sts" = None →
   clock_reads ev
   = [clock B (h ++ [ClientCreated (boto3.mkClient "sts" session)])]).
Proof.
  cbv zeta. rewrite run__assume_role. cbn zeta.
  destruct (create_client B h session "sts") as [e|].
  { split_and!; [reflexivity|cbn; lia|done]. }
  case_split; (split_and!; [reflexivity|cbn; lia|reflexivity]).
Qed.

(** C8 fails as stated: with a clock that advances by one microsecond per
    event, two role assumptions in a row, for the same role, read the clock
    within the same second and pass the same session name. *)
Lemma session_name_reused_within_a_second : ¬ session_names_never_reused.
Proof.
  intros Hclaim.
  pose (base := boto3.mkSession None None None "us-east-1").
  apply (Hclaim Examples.serving Examples.delegated base base []
           eq_refl
           "S3ExcelProcessor-1700000000" "S3ExcelProcessor-1700000000").
  - apply list_elem_of_In. vm_compute. tauto.
  - apply list_elem_of_In. vm_compute. tauto.
  - reflexivity.
Qed.

(** The same with two constructions in a row: both pass the session name
    [S3ExcelProcessor-1700000000]. *)
Example session_name_reused_by_two_constructions :
  let r1 := run (__init__ Examples.serving Examples.role None None
                   "us-east-1") [] in
  let r2 := run (__init__ Examples.serving Examples.role None None
                   "us-east-1") r1.2 in
  session_names r1.2 = ["S3ExcelProcessor-1700000000"] ∧
  session_names r2.2 = ["S3ExcelProcessor-1700000000"].
Proof. split; reflexivity. Qed.

(** C8, amended.  A role assumption reads the clock at most once, just
    before the call, and exactly once when its STS client can be built;
    the session name it passes is the prefix [S3ExcelProcessor-] followed
    by the whole seconds, in decimal, of that reading (the float of
    [timestamp()] truncated by [int]).  Two such names differ exactly when
    the whole seconds of the two readings differ. *)
Theorem session_name_is_prefix_and_whole_seconds B self s1 s2 h1 h2 :
  let ev1 := (run (_assume_role B self s1) h1).2 in
  let ev2 := (run (_assume_role B self s2) h2).2 in
  let name t :=
    "S3ExcelProcessor-" +:+ pretty (Z.quot (Qnum t) (Z.pos (Qden t))) in
  session_names ev1 = name <$> clock_reads ev1 ∧
  session_names ev2 = name <$> clock_reads ev2 ∧
  (length (clock_reads ev1) ≤ 1)%nat ∧
  (length (clock_reads ev2) ≤ 1)%nat ∧
  (create_client B h1 s1 "sts" = None →
   clock_reads ev1
   = [clock B (h1 ++ [ClientCreated (boto3.mkClient "sts" s1)])]) ∧
  (create_client B h2 s2 "sts" = None →
   clock_reads ev2
   = [clock B (h2 ++ [ClientCreated (boto3.mkClient "sts" s2)])]) ∧
  (∀ t1 t2,
     name t1 ≠ name t2
     ↔ Z.quot (Qnum t1) (Z.pos (Qden t1))
       ≠ Z.quot (Qnum t2) (Z.pos (Qden t2))).
Proof.
  intros ev1 ev2 name.
  destruct (session_names__assume_role B self s1 h1) as (Hn1 & Hl1 & Hc1).
  destruct (session_names__assume_role B self s2 h2) as (Hn2 & Hl2 & Hc2).
  split_and!; try done.
  intros t1 t2. apply not_iff_compat, (role_session_name_eq t1 t2).
Qed.

Lemma session_name_is_prefix_and_whole_seconds_witness :
  let base := boto3.mkSession None None None "us-east-1" in
  let ev1 := (run (_assume_role Examples.serving Examples.delegated base)
                []).2 in
  let ev2 := (run (_assume_role Examples.serving Examples.delegated base)
                ev1).2 in
  session_names ev1 = ["S3ExcelProcessor-1700000000"] ∧
  session_names ev2 = ["S3ExcelProcessor-1700000000"] ∧
  clock_reads ev1 = [Qmake 1700000000250001 1000000] ∧
  clock_reads ev2 = [Qmake 1700000000250004 1000000].
Proof.
  intros base ev1 ev2.
  destruct (session_name_is_prefix_and_whole_seconds Examples.serving
              Examples.delegated base base [] ev1)
    as (Hn1 & Hn2 & _ & _ & Hc1 & Hc2 & _).
  fold ev1 in Hn1, Hc1. fold ev2 in Hn2, Hc2.
  rewrite Hn1, Hn2, (Hc1 eq_refl), (Hc2 eq_refl).
  split_and!; reflexivity.
Defined.

(** Readings in different seconds give different names. *)
Example session_names_of_different_seconds :
  role_session_name (Qmake 1700000000999999 1000000)
  ≠ role_session_name (Qmake 1700000001000000 1000000).
Proof. intros Heq%role_session_name_eq. vm_compute in Heq. discriminate. Qed.

(** ** Sample runs *)

(** A backend that answers the connectivity check and fails afterwards: the
    constructor returns, and the enumeration degrades to the empty list. *)
Example flaky_listing_degrades :
  let r := run (__init__ Examples.flaky None None None "us-east-1") [] in
  r.1 = inr Examples.connected ∧
  (run (get_files_from_s3_folder Examples.flaky Examples.text0
          Examples.connected) r.2).1
  = inr (PyList []).
Proof. split; reflexivity. Qed.

(** A response whose [Contents] is present but empty: the frame has no
    [Key] column, the [KeyError] is caught and logged, and the empty list
    is returned. *)
Example blank_contents_logged :
  run (get_files_from_s3_folder Examples.blank_bucket Examples.text0
         Examples.connected) []
  = (inr (PyList []),
     [ListObjectsV2Call
        (boto3.mkClient "s3" (boto3.mkSession None None None "us-east-1"))
        "inversolarmx" None (Examples.listed (Some []));
      Logged INFO "Found 0 objects in source folder";
      Logged ERROR "Error getting files from S3: 'Key'"]).
Proof. reflexivity. Qed.

(** * Further properties of the module *)

(** ** The constructor *)





(** With an empty region no S3 client can be built: the constructor raises
    and one error is logged. *)
Example empty_region_one_error :
  let r := run (__init__ Examples.regional None None None EmptyString) [] in
  r.1 = inl (ValueError "Invalid endpoint: https://s3..amazonaws.com") ∧
  length (List.filter is_error_log r.2) = 1%nat ∧
  clients r.2 = [].
Proof. split_and!; reflexivity. Qed.

(** X3.  The connectivity check reads [response['Name']]: when the listing
    call is answered, the constructor returns if the response has a [Name]
    and raises [KeyError('Name')] if it has none. *)
Theorem answered_listing_needs_name B arn ak sk region h c b p out :
  let r := run (__init__ B arn ak sk region) h in
  ListObjectsV2Call c b p (inr out) ∈ r.2 →
  match boto3.Name out with
  | Some _ => ∃ self, r.1 = inr self
  | None => r.1 = inl (KeyError "Name")
  end.
Proof.
  intros r. subst r. unfold_M. case_split.
  all: intros; elem_of_history.
  all: repeat match goal with
              | H : boto3.Name _ = _ |- _ => rewrite H
              end; eauto.
Qed.

Lemma answered_listing_needs_name_witness :
  let r := run (__init__ Examples.nameless None None None "us-east-1") [] in
  let c := boto3.mkClient "s3" (boto3.mkSession None None None "us-east-1") in
  let out := boto3.mkListObjectsV2Output None (Some [Examples.entry1]) in
  ListObjectsV2Call c SOURCE_BUCKET None (inr out) ∈ r.2 ∧
  match boto3.Name out with
  | Some _ => ∃ self, r.1 = inr self
  | None => r.1 = inl (KeyError "Name")
  end.
Proof.
  intros r c out.
  assert (ListObjectsV2Call c SOURCE_BUCKET None (inr out) ∈ r.2) as Hin.
  { apply list_elem_of_In. vm_compute. tauto. }
  split; [exact Hin|].
  exact (answered_listing_needs_name Examples.nameless None None None
           "us-east-1" [] c SOURCE_BUCKET None out Hin).
Defined.

(** X4.  When [assume_role] is answered without a [Credentials] member,
    the constructor raises [KeyError('Credentials')]; the base session is
    the only session it has built and no listing call was made. *)
Theorem answer_without_credentials B arn ak sk region h c a name out :
  let r := run (__init__ B arn ak sk region) h in
  AssumeRoleCall c a name (inr out) ∈ r.2 →
  boto3.Credentials_ out = None →
  r.1 = inl (KeyError "Credentials") ∧
  length (sessions r.2) = 1%nat ∧
  List.filter is_list_call r.2 = [].
Proof.
  intros r. subst r. unfold_M. case_split.
  all: intros; elem_of_history; try congruence; done.
Qed.

Lemma answer_without_credentials_witness :
  let r := run (__init__ Examples.uncredentialed Examples.role None None
                  "us-east-1") [] in
  let c := boto3.mkClient "sts"
             (boto3.mkSession None None None "us-east-1") in
  let out := boto3.mkAssumeRoleOutput None in
  AssumeRoleCall c Examples.role "S3ExcelProcessor-1700000000" (inr out)
  ∈ r.2 ∧
  boto3.Credentials_ out = None ∧
  r.1 = inl (KeyError "Credentials") ∧
  length (sessions r.2) = 1%nat ∧
  List.filter is_list_call r.2 = [].
Proof.
  intros r c out.
  assert (AssumeRoleCall c Examples.role "S3ExcelProcessor-1700000000"
            (inr out) ∈ r.2) as Hin.
  { apply list_elem_of_In. vm_compute. tauto. }
  assert (boto3.Credentials_ out = None) as Hnone by reflexivity.
  split; [exact Hin|]. split; [exact Hnone|].
  exact (answer_without_credentials Examples.uncredentialed Examples.role
           None None "us-east-1" [] c Examples.role _ out Hin Hnone).
Defined.

(** X5.  Every session the constructor builds, base or temporary, is in
    the region it was given, and every client it creates is bound to one
    of these sessions; the object it returns records the region and the
    role unchanged and keeps an S3 client. *)
Theorem construction_keeps_region B arn ak sk region h :
  let r := run (__init__ B arn ak sk region) h in
  (∀ s, s ∈ sessions r.2 → boto3.region_name s = region) ∧
  (∀ c, c ∈ clients r.2 → boto3.session c ∈ sessions r.2) ∧
  (∀ self,
     r.1 = inr self →
     region_name self = region ∧
     assume_role_arn self = arn ∧
     ∃ c, s3_client self = Some c ∧
          boto3.service_name c = "s3" ∧
          last (clients r.2) = Some c).
Proof.
  intros r. subst r. unfold_M. case_split.
  all: split_and!; intros; simplify_eq/=; elem_of_history; eauto.
  all: try (apply list_elem_of_In; cbn; tauto).
  all: split_and!; [reflexivity|reflexivity|].
  all: eexists; split_and!; reflexivity.
Qed.

Lemma construction_keeps_region_witness :
  let r := run (__init__ Examples.serving Examples.role None None
                  "eu-west-1") [] in
  (∀ s, s ∈ sessions r.2 → boto3.region_name s = "eu-west-1") ∧
  (∀ c, c ∈ clients r.2 → boto3.session c ∈ sessions r.2) ∧
  (∀ self,
     r.1 = inr self →
     region_name self = "eu-west-1" ∧
     assume_role_arn self = Examples.role ∧
     ∃ c, s3_client self = Some c ∧
          boto3.service_name c = "s3" ∧
          last (clients r.2) = Some c).
Proof.
  apply (construction_keeps_region Examples.serving Examples.role None None
           "eu-west-1" []).
Defined.

(** ** The listing *)

(** The frame behind a returned result, with the response it came from. *)
Lemma get_files_frame B T self h df :
  (run (get_files_from_s3_folder B T self) h).1 = inr (PyDataFrame df) →
  ∃ c out o contents,
    ListObjectsV2Call c SOURCE_BUCKET None (inr out)
    ∈ (run (get_files_from_s3_folder B T self) h).2 ∧
    boto3.Contents out = Some (o :: contents) ∧
    files_dataframe T (o :: contents) = inr df.
Proof.
  rewrite run_get_files_from_s3_folder.
  destruct (s3_client self) as [c|]; [|done].
  cbn zeta.
  destruct (s3_list_objects_v2 B h c SOURCE_BUCKET None) as [e|out]; [done|].
  destruct (boto3.Contents out) as [[|o contents]|] eqn:Hcontents; [| |done].
  - by rewrite files_dataframe_nil.
  - destruct (files_dataframe T (o :: contents)) as [e|df'] eqn:Hdf; [done|].
    cbn [fst snd]. intros [= <-].
    exists c, out, o, contents. split_and!; [|done..].
    apply elem_of_cons; by left.
Qed.

Lemma Object_items_is_Some o label :
  is_Some (Object_items o !! label)
  ↔ label ∈ ["Key"; "LastModified"; "ETag"; "Size"; "StorageClass"] ∨
    is_Some (boto3.Other o !! label).
Proof.
  unfold Object_items.
  rewrite !lookup_insert_is_Some', !elem_of_cons, elem_of_nil.
  split; intros H; destruct_or!; eauto 10.
Qed.

Lemma column_names_objects_iff o contents label :
  label ∈ pd.column_names (Object_items <$> o :: contents)
  ↔ label ∈ ["Key"; "LastModified"; "ETag"; "Size"; "StorageClass"] ∨
    ∃ o', o' ∈ o :: contents ∧ is_Some (boto3.Other o' !! label).
Proof.
  split.
  - unfold pd.column_names. intros (X & HX & Hl)%elem_of_union_list.
    apply list_elem_of_fmap in HX as (row & -> & Hrow).
    apply list_elem_of_fmap in Hrow as (o' & -> & Ho').
    apply elem_of_dom in Hl. apply Object_items_is_Some in Hl as [Hl|Hl].
    + by left.
    + right. by exists o'.
  - intros [Hl|(o' & Ho' & Hl)].
    + apply column_names_objects, Object_items_is_Some. by left.
    + unfold pd.column_names. apply elem_of_union_list.
      exists (dom (Object_items o')). split.
      * apply list_elem_of_fmap. exists (Object_items o'). split; [done|].
        apply list_elem_of_fmap. by exists o'.
      * apply elem_of_dom, Object_items_is_Some. by right.
Qed.

(** X7.  [get_files_from_s3_folder] only lists and logs: it builds no
    session and no client, makes no STS call and does not read the clock;
    it makes at most one listing call and logs at most one error. *)
Theorem listing_touches_only_storage B T self h :
  let r := run (get_files_from_s3_folder B T self) h in
  sessions r.2 = [] ∧
  clients r.2 = [] ∧
  List.filter is_assume_call r.2 = [] ∧
  clock_reads r.2 = [] ∧
  (length (List.filter is_list_call r.2) ≤ 1)%nat ∧
  (length (List.filter is_error_log r.2) ≤ 1)%nat.
Proof.
  intros r. subst r. rewrite run_get_files_from_s3_folder.
  destruct (s3_client self) as [c|]; case_split.
  all: split_and!; cbn; done || lia.
Qed.

(** X8.  The result of the listing is determined by the answer to its one
    listing call: two runs whose calls get the same answer return the same
    value, whatever the backend, the client, the history and the text
    conversions are.  Listing an unchanged bucket twice gives equal
    results. *)
Theorem listing_result_determined_by_answer
    B1 B2 T1 T2 self1 self2 c1 c2 h1 h2 :
  s3_client self1 = Some c1 →
  s3_client self2 = Some c2 →
  s3_list_objects_v2 B1 h1 c1 SOURCE_BUCKET None
  = s3_list_objects_v2 B2 h2 c2 SOURCE_BUCKET None →
  (run (get_files_from_s3_folder B1 T1 self1) h1).1
  = (run (get_files_from_s3_folder B2 T2 self2) h2).1.
Proof.
  intros Hc1 Hc2 Hans.
  rewrite !run_get_files_from_s3_folder, Hc1, Hc2. cbn zeta.
  rewrite Hans.
  destruct (s3_list_objects_v2 B2 h2 c2 SOURCE_BUCKET None) as [e|out];
    [done|].
  destruct (boto3.Contents out) as [[|o contents]|]; [| |done].
  - by rewrite !files_dataframe_nil.
  - by rewrite !files_dataframe_cons.
Qed.

Lemma listing_result_determined_by_answer_witness :
  let c := boto3.mkClient "s3" (boto3.mkSession None None None "us-east-1") in
  let h := (run (__init__ Examples.serving None None None "us-east-1") []).2 in
  s3_client Examples.connected = Some c ∧
  s3_list_objects_v2 Examples.serving [] c SOURCE_BUCKET None
  = s3_list_objects_v2 Examples.serving h c SOURCE_BUCKET None ∧
  (run (get_files_from_s3_folder Examples.serving Examples.text0
          Examples.connected) []).1
  = (run (get_files_from_s3_folder Examples.serving Examples.text0
            Examples.connected) h).1.
Proof.
  intros c h.
  assert (s3_client Examples.connected = Some c) as Hc by reflexivity.
  assert (s3_list_objects_v2 Examples.serving [] c SOURCE_BUCKET None
          = s3_list_objects_v2 Examples.serving h c SOURCE_BUCKET None)
    as Hans by reflexivity.
  split; [exact Hc|]. split; [exact Hans|].
  exact (listing_result_determined_by_answer Examples.serving
           Examples.serving Examples.text0 Examples.text0 Examples.connected
           Examples.connected c c [] h Hc Hc Hans).
Defined.

Lemma column_objects contents label :
  pd.column (Object_items <$> contents) label
  = (λ o, default pd.CNaN (Object_items o !! label)) <$> contents.
Proof. unfold pd.column. by rewrite <- list_fmap_compose. Qed.

Lemma lookup_objects_frame o contents label :
  label ∈ ["Key"; "LastModified"; "ETag"; "Size"; "StorageClass"] →
  pd.columns (pd.from_records (Object_items <$> o :: contents)) !! label
  = Some ((λ o, default pd.CNaN (Object_items o !! label))
            <$> o :: contents).
Proof.
  intros Hl. rewrite lookup_from_records, decide_True.
  - by rewrite column_objects.
  - apply column_names_objects_iff. by left.
Qed.

(** X9.  A returned frame has one column for each of [Key],
    [LastModified], [ETag], [Size] and [StorageClass] and for every other
    member that occurs in some entry of the response, and no further
    column; it has one row per entry and each column has one value per
    row; the [ETag], [Size] and [StorageClass] columns hold the values of
    the response unchanged and in order. *)
Theorem returned_frame_columns B T self h df :
  let r := run (get_files_from_s3_folder B T self) h in
  r.1 = inr (PyDataFrame df) →
  ∃ c out contents,
    ListObjectsV2Call c SOURCE_BUCKET None (inr out) ∈ r.2 ∧
    boto3.Contents out = Some contents ∧
    pd.index df = length contents ∧
    (∀ label,
       is_Some (pd.columns df !! label)
       ↔ label ∈ ["Key"; "LastModified"; "ETag"; "Size"; "StorageClass"] ∨
         ∃ o, o ∈ contents ∧ is_Some (boto3.Other o !! label)) ∧
    (∀ label col,
       pd.columns df !! label = Some col → length col = pd.index df) ∧
    pd.columns df !! "ETag"
    = Some ((λ o, pd.CStr (boto3.ETag o)) <$> contents) ∧
    pd.columns df !! "Size"
    = Some ((λ o, pd.CInt (boto3.Size o)) <$> contents) ∧
    pd.columns df !! "StorageClass"
    = Some ((λ o, pd.CStr (boto3.StorageClass o)) <$> contents).
Proof.
  intros r Hr. subst r.
  destruct (get_files_frame B T self h df Hr)
    as (c & out & o & contents & Hin & Hcontents & Hdf).
  rewrite files_dataframe_cons in Hdf. apply (inj inr) in Hdf. subst df.
  exists c, out, (o :: contents).
  split; [done|]. split; [done|].
  cbn [pd.setitem pd.columns pd.index].
  assert (pd.index (pd.from_records (Object_items <$> o :: contents))
          = length (o :: contents)) as Hindex
    by (cbn [pd.from_records pd.index]; apply length_fmap).
  split_and!.
  - done.
  - intros label. rewrite !lookup_insert_is_Some'.
    rewrite lookup_from_records, <- column_names_objects_iff.
    destruct (decide (label ∈ _)) as [Hl|Hl].
    + split; [done|]. intros _. right. right. right. by eexists.
    + split; [|done]. intros [<-|[<-|[<-|Hsome]]].
      * apply column_names_objects_iff. left.
        apply list_elem_of_In. cbn. tauto.
      * apply column_names_objects_iff. left.
        apply list_elem_of_In. cbn. tauto.
      * apply column_names_objects_iff. left.
        apply list_elem_of_In. cbn. tauto.
      * by apply is_Some_None in Hsome.
  - intros label col.
    destruct (decide (label = "LastModified")) as [->|Hlm].
    { rewrite lookup_insert_eq. intros Hcol. apply (inj Some) in Hcol.
      subst col. rewrite Hindex. apply length_fmap. }
    rewrite !(lookup_insert_ne _ "LastModified") by done.
    destruct (decide (label = "Key")) as [->|Hkey].
    { rewrite lookup_insert_eq. intros Hcol. apply (inj Some) in Hcol.
      subst col. rewrite Hindex. apply length_fmap. }
    rewrite lookup_insert_ne by done.
    rewrite lookup_from_records.
    destruct (decide (label ∈ _)); [|done].
    intros Hcol. apply (inj Some) in Hcol. subst col.
    rewrite Hindex. unfold pd.column.
    rewrite length_fmap. apply length_fmap.
  - rewrite !lookup_insert_ne by done.
    rewrite lookup_objects_frame by (apply list_elem_of_In; cbn; tauto).
    f_equal. apply list_fmap_ext. intros i o' _. unfold Object_items.
    rewrite !lookup_insert_ne by done. by rewrite lookup_insert_eq.
  - rewrite !lookup_insert_ne by done.
    rewrite lookup_objects_frame by (apply list_elem_of_In; cbn; tauto).
    f_equal. apply list_fmap_ext. intros i o' _. unfold Object_items.
    rewrite !lookup_insert_ne by done. by rewrite lookup_insert_eq.
  - rewrite !lookup_insert_ne by done.
    rewrite lookup_objects_frame by (apply list_elem_of_In; cbn; tauto).
    f_equal. apply list_fmap_ext. intros i o' _. unfold Object_items.
    rewrite !lookup_insert_ne by done. by rewrite lookup_insert_eq.
Qed.

Lemma returned_frame_columns_witness :
  let r := run (get_files_from_s3_folder Examples.serving Examples.text0
                  Examples.connected) [] in
  r.1 = inr (PyDataFrame Examples.frame) ∧
  ∃ c out contents,
    ListObjectsV2Call c SOURCE_BUCKET None (inr out) ∈ r.2 ∧
    boto3.Contents out = Some contents ∧
    pd.index Examples.frame = length contents ∧
    (∀ label,
       is_Some (pd.columns Examples.frame !! label)
       ↔ label ∈ ["Key"; "LastModified"; "ETag"; "Size"; "StorageClass"] ∨
         ∃ o, o ∈ contents ∧ is_Some (boto3.Other o !! label)) ∧
    (∀ label col,
       pd.columns Examples.frame !! label = Some col →
       length col = pd.index Examples.frame) ∧
    pd.columns Examples.frame !! "ETag"
    = Some ((λ o, pd.CStr (boto3.ETag o)) <$> contents) ∧
    pd.columns Examples.frame !! "Size"
    = Some ((λ o, pd.CInt (boto3.Size o)) <$> contents) ∧
    pd.columns Examples.frame !! "StorageClass"
    = Some ((λ o, pd.CStr (boto3.StorageClass o)) <$> contents).
Proof.
  assert ((run (get_files_from_s3_folder Examples.serving Examples.text0
                  Examples.connected) []).1
          = inr (PyDataFrame Examples.frame)) as Hrun
    by (vm_compute; reflexivity).
  split; [exact Hrun|].
  exact (returned_frame_columns Examples.serving Examples.text0
           Examples.connected [] Examples.frame Hrun).
Defined.

(** The sample listing has an entry with two further members, so its frame
    has seven columns; the entry without them shows [NaN] there. *)
Example sample_frame_columns :
  size (pd.columns Examples.frame) = 7%nat ∧
  pd.columns Examples.frame !! "ChecksumType"
  = Some [pd.CNaN; pd.CStr "FULL_OBJECT"].
Proof. split; vm_compute; reflexivity. Qed.

(** ** The manual test *)

(** What the manual test needs to know about a run of the constructor. *)
Lemma init_outcome B arn ak sk region h :
  let r := run (__init__ B arn ak sk region) h in
  (∀ s, s ∈ sessions r.2 → boto3.region_name s = region) ∧
  head (sessions r.2)
  = Some (if truthy ak && truthy sk
          then boto3.mkSession ak sk None region
          else boto3.mkSession None None None region) ∧
  (if truthy arn
   then (List.filter is_assume_call r.2 = [] ∧
         existsb (is_refused_client "sts") r.2 = true) ∨
        ∃ c name ans,
          List.filter is_assume_call r.2 = [AssumeRoleCall c arn name ans]
   else List.filter is_assume_call r.2 = []) ∧
  (∀ self,
     r.1 = inr self →
     ∃ c out,
       s3_client self = Some c ∧
       List.filter is_list_call r.2
       = [ListObjectsV2Call c SOURCE_BUCKET None (inr out)]) ∧
  (∀ e,
     r.1 = inl e →
     last r.2
     = Some (Logged ERROR
               ("Failed to initialize AWS clients: " +:+ exn_str e)) ∧
     (length (List.filter is_list_call r.2) ≤ 1)%nat).
Proof.
  intros r. subst r. unfold_M.
  destruct (truthy ak && truthy sk) eqn:Hkeys, (truthy arn) eqn:Harn;
    case_split.
  all: split_and!; [|reflexivity| |..].
  all: try reflexivity.
  all: try (right; eexists _, _, _; reflexivity).
  all: try (left; split; reflexivity).
  all: intros; simplify_eq/=; elem_of_history.
  all: try done.
  all: try (split; [reflexivity|cbn; lia]).
  all: eexists _, _; split; reflexivity.
Qed.

(** The listing never raises, builds no session and makes no STS call. *)
Lemma get_files_outcome B T self h :
  let r := run (get_files_from_s3_folder B T self) h in
  (∃ v, r.1 = inr v) ∧
  sessions r.2 = [] ∧
  List.filter is_assume_call r.2 = [] ∧
  (∀ c, s3_client self = Some c →
        ∃ ans,
          List.filter is_list_call r.2
          = [ListObjectsV2Call c SOURCE_BUCKET None ans]).
Proof.
  intros r. subst r. rewrite run_get_files_from_s3_folder.
  destruct (s3_client self) as [c|]; case_split.
  all: split_and!; try done; try by eexists.
  all: intros; simplify_eq; by eexists.
Qed.

Arguments __init__ : simpl never.
Arguments get_files_from_s3_folder : simpl never.

(** The manual test as a run of the constructor on the resolved arguments
    followed by a listing. *)
Lemma run_run_manual_test B T environ ak sk arn region h :
  run (run_manual_test B T environ ak sk arn region) h =
    let ak' := if truthy ak then ak else environ !! "AWS_ACCESS_KEY_ID" in
    let sk' :=
      if truthy sk then sk else environ !! "AWS_SECRET_ACCESS_KEY" in
    let arn' := if truthy arn then arn else environ !! "ASSUME_ROLE_ARN" in
    let region' :=
      if truthy region then opt_str region
      else default "us-east-1" (environ !! "AWS_DEFAULT_REGION") in
    let intro :=
      [Logged INFO "Starting manual test execution";
       Logged INFO (str_mul "=" 50)] in
    let r := run (__init__ B arn' ak' sk' region') (h ++ intro) in
    match r.1 with
    | inl e => (inl e, intro ++ r.2)
    | inr aws_client =>
        (inr true,
         intro ++ r.2
         ++ (run (get_files_from_s3_folder B T aws_client)
               (h ++ intro ++ r.2)).2)
    end.
Proof.
  cbv zeta.
  unfold run_manual_test, try_except, mbind, M_bind, bind, logger.info, emit,
    mret, M_ret, ret, raise, run.
  cbn [app]. rewrite <- !(assoc_L (++)). cbn [app].
  destruct (__init__ B _ _ _ _ _) as [[e|aws_client] ev] eqn:Hinit;
    cbn [fst snd app].
  - by rewrite ?app_nil_r.
  - rewrite <- !(assoc_L (++)). cbn [app].
    destruct (get_files_outcome B T aws_client
                (h ++ Logged INFO "Starting manual test execution"
                   :: Logged INFO (str_mul "=" 50) :: ev)) as ([v Hv] & _).
    unfold run in Hv.
    destruct (get_files_from_s3_folder B T aws_client _) as [[e'|v'] ev'];
      [done|].
    cbn [fst snd app]. by rewrite ?app_nil_r.
Qed.

Lemma filter_intro (f : event → bool) l1 l2 ev ev' :
  f l1 = false → f l2 = false →
  List.filter f (l1 :: l2 :: ev ++ ev') = List.filter f ev ++ List.filter f ev'.
Proof. intros H1 H2. cbn. rewrite H1, H2. apply List.filter_app. Qed.

(** X10.  The manual test never returns [False].  It returns [True] as
    soon as the constructor returns, whatever the listing then meets: such
    a run has made exactly two listing calls, the answered connectivity
    check and the enumeration, through the same client on the source
    bucket without a prefix.  It raises only when the constructor raises,
    with the constructor's exception, after at most one listing call. *)
Theorem manual_test_outcome B T environ ak sk arn region h :
  let r := run (run_manual_test B T environ ak sk arn region) h in
  r.1 ≠ inr false ∧
  (r.1 = inr true →
   ∃ c out ans,
     List.filter is_list_call r.2
     = [ListObjectsV2Call c SOURCE_BUCKET None (inr out);
        ListObjectsV2Call c SOURCE_BUCKET None ans]) ∧
  (∀ e,
     r.1 = inl e →
     last r.2
     = Some (Logged ERROR
               ("Failed to initialize AWS clients: " +:+ exn_str e)) ∧
     (length (List.filter is_list_call r.2) ≤ 1)%nat).
Proof.
  intros r. subst r. rewrite run_run_manual_test. cbv zeta.
  match goal with
  | |- context [run (__init__ B ?a ?k ?s ?reg) ?h0] =>
      destruct (init_outcome B a k s reg h0) as (_ & _ & _ & Hok & Herr);
      destruct (run (__init__ B a k s reg) h0) as [[e|self] ev] eqn:Hinit
  end; cbn [fst snd app] in *.
  - split_and!; [done|done|]. intros e' [= <-].
    destruct (Herr e eq_refl) as [Hlast Hlen]. split.
    + rewrite !last_cons, Hlast. done.
    + done.
  - split_and!; [done| |done]. intros _.
    destruct (Hok self eq_refl) as (c & out & Hc & Hcalls).
    match goal with
    | |- context [run (get_files_from_s3_folder B T self) ?h1] =>
        destruct (get_files_outcome B T self h1) as (_ & _ & _ & Hlist)
    end.
    destruct (Hlist c Hc) as [ans Hans].
    exists c, out, ans.
    rewrite filter_intro by done. by rewrite Hcalls, Hans.
Qed.

Lemma manual_test_outcome_witness :
  let r := run (run_manual_test Examples.flaky Examples.text0
                  Examples.environ None None None None) [] in
  r.1 ≠ inr false ∧
  (r.1 = inr true →
   ∃ c out ans,
     List.filter is_list_call r.2
     = [ListObjectsV2Call c SOURCE_BUCKET None (inr out);
        ListObjectsV2Call c SOURCE_BUCKET None ans]) ∧
  (∀ e,
     r.1 = inl e →
     last r.2
     = Some (Logged ERROR
               ("Failed to initialize AWS clients: " +:+ exn_str e)) ∧
     (length (List.filter is_list_call r.2) ≤ 1)%nat).
Proof.
  apply (manual_test_outcome Examples.flaky Examples.text0 Examples.environ
           None None None None []).
Defined.

(** The flaky backend fails the enumeration, and the manual test still
    returns [True]. *)
Example manual_test_hides_listing_failure :
  let r := run (run_manual_test Examples.flaky Examples.text0
                  Examples.environ None None None None) [] in
  r.1 = inr true ∧
  last r.2
  = Some (Logged ERROR
            "Error getting files from S3: Could not connect to the endpoint URL").
Proof. split; reflexivity. Qed.

(** The events of a manual test: two log records, the events of the
    constructor on the resolved arguments, and a tail without sessions and
    STS calls. *)
Lemma manual_test_events B T environ ak sk arn region h :
  let ak' := if truthy ak then ak else environ !! "AWS_ACCESS_KEY_ID" in
  let sk' := if truthy sk then sk else environ !! "AWS_SECRET_ACCESS_KEY" in
  let arn' := if truthy arn then arn else environ !! "ASSUME_ROLE_ARN" in
  let region' :=
    if truthy region then opt_str region
    else default "us-east-1" (environ !! "AWS_DEFAULT_REGION") in
  let l1 := Logged INFO "Starting manual test execution" in
  let l2 := Logged INFO (str_mul "=" 50) in
  ∃ tail,
    (run (run_manual_test B T environ ak sk arn region) h).2
    = l1 :: l2 :: (run (__init__ B arn' ak' sk' region') (h ++ [l1; l2])).2
      ++ tail ∧
    sessions tail = [] ∧
    List.filter is_assume_call tail = [].
Proof.
  cbv zeta. rewrite run_run_manual_test. cbv zeta.
  destruct (run (__init__ B _ _ _ _) _) as [[e|self] ev]; cbn [fst snd app].
  - exists []. by rewrite app_nil_r.
  - match goal with
    | |- context [run (get_files_from_s3_folder B T self) ?h1] =>
        destruct (get_files_outcome B T self h1) as (_ & Hs & Ha & _)
    end.
    eexists. split_and!; [reflexivity|done..].
Qed.

(** X12.  Every session built during a manual test is in the region given
    as argument when there is one; otherwise in the region named by
    [AWS_DEFAULT_REGION], used as it is even when it is the empty string,
    and in [us-east-1] when the variable is not set. *)
Theorem manual_test_region B T environ ak sk arn region h s :
  let r := run (run_manual_test B T environ ak sk arn region) h in
  s ∈ sessions r.2 →
  (truthy region = true → region = Some (boto3.region_name s)) ∧
  (truthy region = false →
   boto3.region_name s
   = default "us-east-1" (environ !! "AWS_DEFAULT_REGION")).
Proof.
  intros r. subst r.
  destruct (manual_test_events B T environ ak sk arn region h)
    as (tail & -> & Htail & _).
  match goal with
  | |- context [run (__init__ B ?a ?k ?s ?reg) ?h0] =>
      destruct (init_outcome B a k s reg h0) as (Hreg & _)
  end.
  unfold sessions in *. cbn [omap list_omap]. rewrite omap_app, Htail, app_nil_r.
  intros Hs%Hreg. rewrite Hs. split.
  - intros Ht. rewrite Ht. by destruct region as [[|a x]|].
  - by intros ->.
Qed.

Lemma manual_test_region_witness :
  let r := run (run_manual_test Examples.serving Examples.text0 ∅
                  None None None None) [] in
  let s := boto3.mkSession None None None "us-east-1" in
  s ∈ sessions r.2 ∧
  (truthy None = true → None = Some (boto3.region_name s)) ∧
  (truthy None = false →
   boto3.region_name s
   = default "us-east-1"
       ((∅ : gmap string string) !! "AWS_DEFAULT_REGION")).
Proof.
  intros r s.
  assert (s ∈ sessions r.2) as Hin.
  { apply list_elem_of_In. vm_compute. tauto. }
  split; [exact Hin|].
  exact (manual_test_region Examples.serving Examples.text0 ∅ None None None
           None [] s Hin).
Defined.





(** The sample run takes the role from the environment and makes the
    call. *)
Example manual_test_role_from_environ :
  let environ : gmap string string :=
    <["ASSUME_ROLE_ARN" := "arn:aws:iam::123:role/X"]> Examples.environ in
  session_names
    (run (run_manual_test Examples.serving Examples.text0 environ
            None None None None) []).2
  = ["S3ExcelProcessor-1700000000"].
Proof. reflexivity. Qed.
